(** * prstr/rest-client: the ProStore API client ([src/index.js])

    A shallow embedding of [src/index.js] and the properties of its request
    signing and verb dispatch.

    Conventions of the embedding.
    - A JavaScript string is a [string] holding the UTF-8 bytes of its text, so
      that [++] is the [+] of two strings and hashing "the UTF-8 bytes" reads
      the characters of the [string] as they are.
    - The module [./utils] ([randomString], [sha256]) and the transport
      ([request]) are collaborators of [index.js]; the first is modelled from
      the specification, the second is a variable of the section that embeds
      the verb methods.
    - Effects (entropy consumed, calls made to the transport and to the
      caller's callback, exceptions) are threaded through a small monad. *)

From Stdlib Require Import ZArith List String Ascii Bool Lia DecimalString.
Import ListNotations.

Local Open Scope list_scope.
Local Open Scope string_scope.

(* ================================================================== *)
(** ** SHA-256 (FIPS 180-4) over 32-bit words held in [Z] *)

Module SHA256.
Local Open Scope Z_scope.

Definition add32 (x y : Z) : Z := (x + y) mod 2 ^ 32.
Definition shr (n x : Z) : Z := Z.shiftr x n.
Definition rotr (n x : Z) : Z :=
  Z.lor (Z.shiftr x n) (Z.shiftl x (32 - n) mod 2 ^ 32).
Definition not32 (x : Z) : Z := Z.lxor x 0xffffffff.

Definition Ch (x y z : Z) : Z := Z.lxor (Z.land x y) (Z.land (not32 x) z).
Definition Maj (x y z : Z) : Z :=
  Z.lxor (Z.lxor (Z.land x y) (Z.land x z)) (Z.land y z).
Definition Sigma0 (x : Z) : Z := Z.lxor (Z.lxor (rotr 2 x) (rotr 13 x)) (rotr 22 x).
Definition Sigma1 (x : Z) : Z := Z.lxor (Z.lxor (rotr 6 x) (rotr 11 x)) (rotr 25 x).
Definition sigma0 (x : Z) : Z := Z.lxor (Z.lxor (rotr 7 x) (rotr 18 x)) (shr 3 x).
Definition sigma1 (x : Z) : Z := Z.lxor (Z.lxor (rotr 17 x) (rotr 19 x)) (shr 10 x).

(** The constants are fractional parts of roots of the first primes: the
    first 32 bits of the fractional part of the cube root of each of the
    first 64 primes for [K], of the square root of each of the first 8 for
    the initial hash value. *)
Definition is_prime (p : Z) : bool :=
  (1 <? p) && forallb (fun d => negb (p mod d =? 0))
                      (map Z.of_nat (seq 2 (Z.to_nat p - 2))).

Definition primes (n : nat) : list Z :=
  firstn n (filter is_prime (map Z.of_nat (seq 2 310))).

(** The largest [x] below [2 ^ b] above the bits already set with
    [x ^ 3 <= n], bit by bit from the top. *)
Fixpoint cube_root_bits (b : nat) (n x : Z) : Z :=
  match b with
  | O => x
  | S b' =>
      let y := x + 2 ^ Z.of_nat b' in
      cube_root_bits b' n (if y * y * y <=? n then y else x)
  end.

Definition frac32_cube_root (p : Z) : Z :=
  cube_root_bits 40 (p * 2 ^ 96) 0 mod 2 ^ 32.

Definition frac32_square_root (p : Z) : Z :=
  Z.sqrt (p * 2 ^ 64) mod 2 ^ 32.

Definition K : list Z :=
  Eval vm_compute in map frac32_cube_root (primes 64).

(** The eight words of a hash value, and the working variables a..h. *)
Record hash : Type := Hash
  { h0 : Z; h1 : Z; h2 : Z; h3 : Z; h4 : Z; h5 : Z; h6 : Z; h7 : Z }.

Definition initial : hash :=
  Eval vm_compute in
    let r := map frac32_square_root (primes 8) in
    Hash (nth 0 r 0) (nth 1 r 0) (nth 2 r 0) (nth 3 r 0)
         (nth 4 r 0) (nth 5 r 0) (nth 6 r 0) (nth 7 r 0).

(** Padding: the bit 1, zero bits up to 448 mod 512, the bit length on 64 bits. *)
Fixpoint be_bytes (n : nat) (x : Z) : list Z :=
  match n with
  | O => []
  | S k => (Z.shiftr x (8 * Z.of_nat k)) mod 256 :: be_bytes k x
  end.

Definition pad (msg : list Z) : list Z :=
  let len := Z.of_nat (List.length msg) in
  msg ++ [0x80] ++ repeat 0 (Z.to_nat ((55 - len) mod 64)) ++ be_bytes 8 (8 * len).

Fixpoint be_words (bs : list Z) : list Z :=
  match bs with
  | a :: b :: c :: d :: rest =>
      (Z.shiftl a 24 + Z.shiftl b 16 + Z.shiftl c 8 + d) :: be_words rest
  | _ => []
  end.

(** Message schedule: [w] holds W_0 .. W_(t-1); [n] more words are appended. *)
Fixpoint schedule (n : nat) (w : list Z) : list Z :=
  match n with
  | O => w
  | S k =>
      let t := List.length w in
      let wt := add32 (add32 (add32 (sigma1 (nth (t - 2) w 0)) (nth (t - 7) w 0))
                             (sigma0 (nth (t - 15) w 0)))
                      (nth (t - 16) w 0) in
      schedule k (w ++ [wt])
  end.

Definition round (v : hash) (kw : Z * Z) : hash :=
  let t1 := add32 (add32 (add32 (add32 (h7 v) (Sigma1 (h4 v)))
                                (Ch (h4 v) (h5 v) (h6 v))) (fst kw)) (snd kw) in
  let t2 := add32 (Sigma0 (h0 v)) (Maj (h0 v) (h1 v) (h2 v)) in
  Hash (add32 t1 t2) (h0 v) (h1 v) (h2 v) (add32 (h3 v) t1) (h4 v) (h5 v) (h6 v).

Definition compress (H : hash) (block : list Z) : hash :=
  let v := fold_left round (combine K (schedule 48 block)) H in
  Hash (add32 (h0 H) (h0 v)) (add32 (h1 H) (h1 v)) (add32 (h2 H) (h2 v))
       (add32 (h3 H) (h3 v)) (add32 (h4 H) (h4 v)) (add32 (h5 H) (h5 v))
       (add32 (h6 H) (h6 v)) (add32 (h7 H) (h7 v)).

Fixpoint blocks (n : nat) (ws : list Z) (H : hash) : hash :=
  match n with
  | O => H
  | S k => blocks k (skipn 16 ws) (compress H (firstn 16 ws))
  end.

Definition digest (msg : list Z) : hash :=
  let ws := be_words (pad msg) in
  blocks (Nat.div (List.length ws) 16) ws initial.

End SHA256.

(* ================================================================== *)
(** ** Hexadecimal rendering *)

Definition hex_digits : list ascii :=
  list_ascii_of_string "0123456789abcdef".

Definition hex_digit (n : Z) : ascii :=
  nth (Z.to_nat (n mod 16)) hex_digits "0"%char.

Definition hex32 (w : Z) : string :=
  String (hex_digit (Z.shiftr w 28)) (String (hex_digit (Z.shiftr w 24))
  (String (hex_digit (Z.shiftr w 20)) (String (hex_digit (Z.shiftr w 16))
  (String (hex_digit (Z.shiftr w 12)) (String (hex_digit (Z.shiftr w 8))
  (String (hex_digit (Z.shiftr w 4)) (String (hex_digit w) ""))))))).

Definition hex_of_hash (H : SHA256.hash) : string :=
  hex32 (SHA256.h0 H) ++ hex32 (SHA256.h1 H) ++ hex32 (SHA256.h2 H) ++
  hex32 (SHA256.h3 H) ++ hex32 (SHA256.h4 H) ++ hex32 (SHA256.h5 H) ++
  hex32 (SHA256.h6 H) ++ hex32 (SHA256.h7 H).

Definition utf8_bytes (s : string) : list Z :=
  map (fun c => Z.of_N (N_of_ascii c)) (list_ascii_of_string s).

Definition sha256_hex (s : string) : string :=
  hex_of_hash (SHA256.digest (utf8_bytes s)).

(* ================================================================== *)
(** ** JavaScript values *)

(** The functions the program can meet: the methods [index.js] installs on
    [ApiClient.prototype], and functions of the caller (callbacks), which
    are opaque and identified by a number. *)
Inductive verb : Type := GET | POST | PUT | DELETE.

Definition verb_name (m : verb) : string :=
  match m with GET => "get" | POST => "post" | PUT => "put" | DELETE => "delete" end.

Inductive func : Type :=
| FnUrl                 (* ApiClient.prototype.url *)
| FnRequest             (* ApiClient.prototype.request *)
| FnVerb (m : verb)     (* ApiClient.prototype.get / post / put / delete *)
| External (id : nat).  (* a function supplied by the caller *)

#[local] Set Warnings "-register-all".
Inductive value : Type :=
| Undefined
| Null
| Bool (b : bool)
| Num (n : Z)
| Str (s : string)
| Obj (fields : list (string * value))   (* an object literal, fields in order *)
| Error (name message : string)          (* new Error(message), new TypeError(message) *)
| Fun (f : func)
| Defaults (d : list (string * value)).  (* the function request.defaults(d) returns *)

Definition object : Type := list (string * value).

Fixpoint lookup (k : string) (o : object) : option value :=
  match o with
  | [] => None
  | (k', v) :: rest => if String.eqb k k' then Some v else lookup k rest
  end.

Definition keys (o : object) : list string := map fst o.

(** ToBoolean. *)
Definition truthy (v : value) : bool :=
  match v with
  | Undefined | Null => false
  | Bool b => b
  | Num n => negb (Z.eqb n 0)
  | Str s => negb (String.eqb s "")
  | Obj _ | Error _ _ | Fun _ | Defaults _ => true
  end.

Definition typeof (v : value) : string :=
  match v with
  | Undefined => "undefined"
  | Null | Obj _ | Error _ _ => "object"
  | Bool _ => "boolean"
  | Num _ => "number"
  | Str _ => "string"
  | Fun _ | Defaults _ => "function"
  end.

Definition is_TypeError (v : value) : bool :=
  match v with Error name _ => String.eqb name "TypeError" | _ => false end.

(* ================================================================== *)
(** ** String operations of the source *)

Definition is_slash (c : ascii) : bool := Ascii.eqb c "/"%char.

Fixpoint all_slashes (s : string) : bool :=
  match s with
  | EmptyString => true
  | String c r => is_slash c && all_slashes r
  end.

(** [s.replace(/\/+$/, '')]: the leftmost position from which only slashes
    (at least one) run to the end of the string is where the match starts;
    the match is removed. *)
Fixpoint replace_trailing_slashes (s : string) : string :=
  match s with
  | EmptyString => EmptyString
  | String c r => if all_slashes s then EmptyString
                  else String c (replace_trailing_slashes r)
  end.

(** [s.replace(/^\//, '')]: one slash at the start of the string is removed. *)
Definition replace_leading_slash (s : string) : string :=
  match s with
  | String c r => if is_slash c then r else s
  | EmptyString => EmptyString
  end.

(** [s.toLowerCase()] on the ASCII letters; HTTP method names are ASCII
    tokens, other bytes are left as they are. *)
Definition lower_ascii (c : ascii) : ascii :=
  let n := nat_of_ascii c in
  if (65 <=? n)%nat && (n <=? 90)%nat then ascii_of_nat (n + 32) else c.

Fixpoint toLowerCase (s : string) : string :=
  match s with
  | EmptyString => EmptyString
  | String c r => String (lower_ascii c) (toLowerCase r)
  end.

(** Number::toString of an integer: decimal digits, with a sign if negative. *)
Definition decimal (n : Z) : string :=
  DecimalString.NilZero.string_of_int (Z.to_int n).

(* ================================================================== *)
(** ** Effects *)

(** What the program does to its surroundings, in order. *)
Inductive event : Type :=
| Dispatch (defaults : object) (options : value)  (* the transport is asked to send *)
| Call (f : func) (args : list value)             (* a function of the caller is called *)
| Uncaught (e : value).                           (* an exception left a completion handler *)

(** The random source is a stream of numbers and the count of those drawn. *)
Record world : Type := World
  { entropy : nat -> N;
    drawn : nat;
    log : list event }.

(** How an evaluation ends: with a value, with a thrown exception, or at a
    construct this embedding does not follow (the text of a function, a
    call into a prototype method through a callback position). *)
Inductive completion (A : Type) : Type :=
| Normal (a : A)
| Throw (e : value)
| Unmodelled.
Arguments Normal {A} a.
Arguments Throw {A} e.
Arguments Unmodelled {A}.

Definition M (A : Type) : Type := world -> completion A * world.

Definition ret {A} (a : A) : M A := fun w => (Normal a, w).

Definition bind {A B} (m : M A) (k : A -> M B) : M B :=
  fun w =>
    match m w with
    | (Normal a, w') => k a w'
    | (Throw e, w') => (Throw e, w')
    | (Unmodelled, w') => (Unmodelled, w')
    end.

Definition throw {A} (e : value) : M A := fun w => (Throw e, w).
Definition unmodelled {A} : M A := fun w => (Unmodelled, w).

Definition emit (e : event) : M unit :=
  fun w => (Normal tt, World (entropy w) (drawn w) (log w ++ [e])).

Declare Scope js_scope.
Delimit Scope js_scope with js.
Notation "x <- m ;; k" := (bind m (fun x => k))
  (at level 100, m at next level, right associativity) : js_scope.
Notation "m ;;; k" := (bind m (fun _ => k))
  (at level 100, right associativity) : js_scope.
Local Open Scope js_scope.

(** A completion handler runs in a later turn of the event loop: what it
    throws does not reach the code that registered it. *)
Definition later (m : M value) : M unit :=
  fun w =>
    match m w with
    | (Normal _, w') => (Normal tt, w')
    | (Throw e, w') => emit (Uncaught e) w'
    | (Unmodelled, w') => (Unmodelled, w')
    end.

(** ToString on the primitive values. *)
Definition to_string (v : value) : M string :=
  match v with
  | Undefined => ret "undefined"
  | Null => ret "null"
  | Bool true => ret "true"
  | Bool false => ret "false"
  | Num n => ret (decimal n)
  | Str s => ret s
  | Obj _ | Error _ _ | Fun _ | Defaults _ => unmodelled
  end.

(** [f(args)] where [f] is not known to be a prototype method: a function of
    the caller is called and recorded, anything that is not a function makes
    the call a TypeError. [what] is the text of the callee for the message. *)
Definition call_value (what : string) (f : value) (args : list value) : M value :=
  match f with
  | Fun (External id) => emit (Call (External id) args) ;;; ret Undefined
  | Fun _ | Defaults _ => unmodelled
  | _ => throw (Error "TypeError" (what ++ " is not a function"))
  end.

(* ================================================================== *)
(** ** The collaborator [./utils] *)

Module utils.

(** Modelled from the spec: [utils.randomString] is not in [src/]. The spec
    (4.1, step 1) has it return a string of the asked length, every character
    drawn from the fixed alphabet of uppercase letters, lowercase letters and
    digits; one number of the random source is consumed per character. *)
Definition alphabet : list ascii :=
  list_ascii_of_string
    "ABCDEFGHIJKLMNOPQRSTUVWXYZabcdefghijklmnopqrstuvwxyz0123456789".

Definition pick (r : N) : ascii :=
  nth (N.to_nat (r mod 62)) alphabet "A"%char.

Fixpoint draw (n : nat) (src : nat -> N) (pos : nat) : string :=
  match n with
  | O => EmptyString
  | S k => String (pick (src pos)) (draw k src (S pos))
  end.

Definition randomString (n : nat) : M string :=
  fun w => (Normal (draw n (entropy w) (drawn w)),
            World (entropy w) (drawn w + n) (log w)).

(** Modelled from the spec: [utils.sha256] is not in [src/]. The spec (4.1,
    step 2, and 6) has it feed the UTF-8 bytes of its argument through
    SHA-256 and render the 256-bit digest as lowercase hexadecimal. *)
Definition sha256 (s : string) : string := sha256_hex s.

End utils.

(* ================================================================== *)
(** ** The client: constructor and prototype *)

(** The argument of the constructor; its three fields are strings. *)
Record options : Type := Options
  { url : string;
    userId : string;
    privateToken : string }.

(** [new ApiClient(options)] (and [ApiClient(options)], which calls it): the
    object holds three own properties. *)
Definition ApiClient (o : options) : object :=
  [("url", Str (replace_trailing_slashes (url o)));
   ("userId", Str (userId o));
   ("privateToken", Str (privateToken o))].

(** The response object the transport hands to a completion handler; the
    program reads its status code only. *)
Record response : Type := Response { statusCode : Z }.

(** The transport: asked to send a request built from the defaults and the
    options of the call, it completes once, with the three arguments it
    gives the completion handler. *)
Definition transport_model : Type :=
  object -> value -> value * option response * value.

(** An argument that may be left out. *)
Definition arg (a : option string) : value :=
  match a with Some s => Str s | None => Undefined end.

Module prototype.

(** The data properties of [ApiClient.prototype]. *)
Definition data : object :=
  [("url", Fun FnUrl);
   ("request", Fun FnRequest);
   ("get", Fun (FnVerb GET));
   ("post", Fun (FnVerb POST));
   ("put", Fun (FnVerb PUT));
   ("delete", Fun (FnVerb DELETE))].

(** [this.name] for a name that is no accessor of the prototype: the own
    property if there is one, else the property of the prototype. *)
Definition get_data (this : object) (name : string) : value :=
  match lookup name this with
  | Some v => v
  | None => match lookup name data with
            | Some v => v
            | None => Undefined
            end
  end.

(** The getter [baseUrl]. *)
Definition baseUrl (this : object) : M value :=
  u <- to_string (get_data this "url") ;;
  ret (Str (u ++ "/api")).

(** The getter [headers]. *)
Definition headers (this : object) : M value :=
  nonce <- utils.randomString 32 ;;
  secret <- to_string (get_data this "privateToken") ;;
  let token := utils.sha256 (nonce ++ ":" ++ secret) in
  ret (Obj [("ProStore-Auth-UserId", get_data this "userId");
            ("ProStore-Auth-Nonce", Str nonce);
            ("ProStore-Auth-Token", Str token)]).

(** [this.name] in general: own property, else accessor or data property of
    the prototype. *)
Definition get (this : object) (name : string) : M value :=
  match lookup name this with
  | Some v => ret v
  | None =>
      if String.eqb name "baseUrl" then baseUrl this
      else if String.eqb name "headers" then headers this
      else ret (get_data this name)
  end.

(** The method [url]; without an endpoint there is nothing to call
    [replace] on. *)
Definition url (this : object) (endpoint : option string) : M value :=
  base <- get this "baseUrl" ;;
  b <- to_string base ;;
  match endpoint with
  | Some e => ret (Str (b ++ "/" ++ replace_leading_slash e))
  | None => throw (Error "TypeError" "Cannot read property 'replace' of undefined")
  end.

(** The method [request]; the fields of the object literal are evaluated in
    the order they are written. *)
Definition request (this : object) (method endpoint : option string) : M value :=
  let m := if truthy (arg method)
           then match method with Some s => Str (toLowerCase s) | None => Undefined end
           else Undefined in
  u <- (if truthy (arg endpoint)
        then f <- get this "url" ;;
             match f with
             | Fun FnUrl => url this endpoint
             | _ => call_value "this.url" f [arg endpoint]
             end
        else ret Undefined) ;;
  h <- get this "headers" ;;
  ret (Defaults [("method", m); ("url", u); ("headers", h); ("json", Bool true)]).

(** The overload of the verb methods: a function in the place of the
    options is the callback, and the options are empty. *)
Definition resolve (opts cb : value) : value * value :=
  if String.eqb (typeof opts) "function" then (Obj [], opts) else (opts, cb).

Section Transport.

Variable transport : transport_model.

(** The completion handler [function(err, res, data)] of the verb methods. *)
Definition completion_handler (cb : value)
    (err : value) (res : option response) (data : value) : M value :=
  if truthy err then call_value "cb" cb [err]
  else match res with
       | None => throw (Error "TypeError" "Cannot read property 'statusCode' of undefined")
       | Some r =>
           if (400 <=? statusCode r)%Z
           then call_value "cb" cb
                  [Error "Error" ("Server returned " ++ decimal (statusCode r))]
           else call_value "cb" cb [Null; data]
       end.

(** [r(options, handler)] for the [r] that [request] returned. *)
Definition send (r : value) (opts : value)
    (handler : value -> option response -> value -> M value) : M value :=
  match r with
  | Defaults d =>
      emit (Dispatch d opts) ;;;
      (let '(err, res, data) := transport d opts in
       later (handler err res data)) ;;;
      ret Undefined
  | Fun _ => unmodelled
  | _ => throw (Error "TypeError" "r is not a function")
  end.

(** The methods [get], [post], [put] and [delete]. *)
Definition verb_method (m : verb) (this : object)
    (endpoint : option string) (opts cb : value) : M value :=
  let '(opts, cb) := resolve opts cb in
  f <- get this "request" ;;
  r <- match f with
       | Fun FnRequest => request this (Some (verb_name m)) endpoint
       | _ => call_value "this.request" f [Str (verb_name m); arg endpoint]
       end ;;
  send r opts (completion_handler cb).

End Transport.

End prototype.

(* ================================================================== *)
(** ** Sample runs *)

Definition sample_options : options :=
  Options "https://example.store" "54b4c1d3bab9e22843c99ea4"
          "e3b0c44298fc1c149afbf4c8996fb92427ae41e4649b934ca495991b7852b855".

(** A random source that always yields the same number, nothing drawn or
    logged yet. *)
Definition quiet (r : N) : world := World (fun _ => r) 0 [].

(** A transport stub that answers every request with a status and a body. *)
Definition answering (status : Z) (body : value) : transport_model :=
  fun _ _ => (Null, Some (Response status), body).

(** A transport stub that fails every request with an error. *)
Definition failing (err : value) : transport_model :=
  fun _ _ => (err, None, Undefined).

(* ================================================================== *)
(** ** Vocabulary of the properties *)

Definition is_upper (c : ascii) : bool :=
  let n := nat_of_ascii c in (65 <=? n)%nat && (n <=? 90)%nat.
Definition is_lower (c : ascii) : bool :=
  let n := nat_of_ascii c in (97 <=? n)%nat && (n <=? 122)%nat.
Definition is_digit (c : ascii) : bool :=
  let n := nat_of_ascii c in (48 <=? n)%nat && (n <=? 57)%nat.

(** Uppercase letter, lowercase letter or digit. *)
Definition is_alnum (c : ascii) : bool := is_upper c || is_lower c || is_digit c.

(** Digit or one of [a]..[f]. *)
Definition is_lower_hex (c : ascii) : bool :=
  let n := nat_of_ascii c in is_digit c || ((97 <=? n)%nat && (n <=? 102)%nat).

Fixpoint all_chars (p : ascii -> bool) (s : string) : bool :=
  match s with
  | EmptyString => true
  | String c r => p c && all_chars p r
  end.

(** The field of an object value. *)
Definition field (k : string) (v : value) : option value :=
  match v with Obj fs => lookup k fs | _ => None end.

(** The nonce a call of [headers] draws in a given world, and the world it
    leaves. *)
Definition nonce_of (w : world) : string := utils.draw 32 (entropy w) (drawn w).
Definition after_nonce (w : world) : world :=
  World (entropy w) (drawn w + 32) (log w).

Definition auth_headers (user nonce secret : string) : value :=
  Obj [("ProStore-Auth-UserId", Str user);
       ("ProStore-Auth-Nonce", Str nonce);
       ("ProStore-Auth-Token", Str (utils.sha256 (nonce ++ ":" ++ secret)))].

(** The URL shape of the specification, [{url}/api/{endpoint}] with one
    slash between the segments whatever slashes end the base or start the
    endpoint: the base without the slashes that end it, the endpoint without
    the slashes that start it. *)
Fixpoint strip_leading_slashes (s : string) : string :=
  match s with
  | String c r => if is_slash c then strip_leading_slashes r else s
  | EmptyString => EmptyString
  end.

Definition url_shape (base endpoint : string) : string :=
  replace_trailing_slashes base ++ "/api/" ++ strip_leading_slashes endpoint.

Definition starts_with_slash (s : string) : bool :=
  match s with String c _ => is_slash c | EmptyString => false end.

Fixpoint ends_with_slash (s : string) : bool :=
  match s with
  | EmptyString => false
  | String c EmptyString => is_slash c
  | String _ r => ends_with_slash r
  end.

Definition starts_with_two_slashes (s : string) : bool :=
  match s with
  | String a (String b _) => is_slash a && is_slash b
  | _ => false
  end.

(** What [this.url(endpoint)] throws on a constructed client. *)
Definition url_not_callable : value :=
  Error "TypeError" "this.url is not a function".

(** When the endpoint is left out or empty, no URL is built and [request]
    returns the defaults with fresh headers. *)
Definition defaults_without_url (o : options) (method : option string) (w : world) : object :=
  [("method", if truthy (arg method)
              then match method with Some s => Str (toLowerCase s) | None => Undefined end
              else Undefined);
   ("url", Undefined);
   ("headers", auth_headers (userId o) (nonce_of w) (privateToken o));
   ("json", Bool true)].

(** The world after one request was sent and the callback [id] was called
    once, with [args]. *)
Definition completed (w : world) (d : object) (opts : value) (id : nat)
    (args : list value) : world :=
  World (entropy w) (drawn w)
        (log w ++ [Dispatch d opts; Call (External id) args]).

Definition echo_options : value := Obj [("url", Str "https://example.store/api/echo")].

Definition network_failure : value := Error "Error" "connect ECONNREFUSED".

(** A run of [n] slashes. *)
Fixpoint slashes (n : nat) : string :=
  match n with
  | O => EmptyString
  | S k => String "/" (slashes k)
  end.

Definition not_upper (c : ascii) : bool := negb (is_upper c).

(** A character of ASCII: a byte below 128. *)
Definition is_ascii7 (c : ascii) : bool := (nat_of_ascii c <? 128)%nat.

(** [typeof v == 'function']. *)
Definition callable (v : value) : bool := String.eqb (typeof v) "function".


Definition is_call (e : event) : bool :=
  match e with Call _ _ => true | _ => false end.

(** [this.headers] read twice in a row, as two requests do. *)
Definition headers_twice (this : object) : M (value * value) :=
  (first <- prototype.get this "headers" ;;
   second <- prototype.get this "headers" ;;
   ret (first, second))%js.

(** The names [index.js] defines on [ApiClient.prototype]. *)
Definition prototype_names : list string :=
  ["baseUrl"; "headers"; "url"; "request"; "get"; "post"; "put"; "delete"].

(* ================================================================== *)
(** ** Checks of the string operations and of SHA-256 *)

Example sha256_constants :
  List.length SHA256.K = 64%nat
  /\ nth 0 SHA256.K 0%Z = 0x428a2f98%Z
  /\ nth 63 SHA256.K 0%Z = 0xc67178f2%Z
  /\ SHA256.h0 SHA256.initial = 0x6a09e667%Z
  /\ SHA256.h7 SHA256.initial = 0x5be0cd19%Z.
Proof. repeat split. Qed.

Example sha256_empty :
  sha256_hex "" = "e3b0c44298fc1c149afbf4c8996fb92427ae41e4649b934ca495991b7852b855".
Proof. vm_compute. reflexivity. Qed.

Example sha256_abc :
  sha256_hex "abc" = "ba7816bf8f01cfea414140de5dae2223b00361a396177a9cb410ff61f20015ad".
Proof. vm_compute. reflexivity. Qed.

Example sha256_two_blocks :
  sha256_hex "abcdbcdecdefdefgefghfghighijhijkijkljklmklmnlmnomnopnopq"
  = "248d6a61d20638b8e5c026930c3e6039a33ce45964ff2167f6ecedd419db06c1".
Proof. vm_compute. reflexivity. Qed.

Example decimal_404 : decimal 404 = "404".
Proof. reflexivity. Qed.

Example replace_trailing_slashes_ex :
  replace_trailing_slashes "https://x.test//" = "https://x.test"
  /\ replace_trailing_slashes "a//b/" = "a//b"
  /\ replace_trailing_slashes "///" = "".
Proof. repeat split; reflexivity. Qed.

Example toLowerCase_ex : toLowerCase "GeT" = "get".
Proof. reflexivity. Qed.

(* ================================================================== *)
(** ** Facts about strings and characters *)

Lemma nth_satisfies (p : ascii -> bool) (l : list ascii) (d : ascii) (i : nat) :
  forallb p l = true -> (i < List.length l)%nat -> p (nth i l d) = true.
Proof.
  intros Hall Hi.
  rewrite forallb_forall in Hall.
  apply Hall, nth_In, Hi.
Qed.

Lemma pick_alnum (r : N) : is_alnum (utils.pick r) = true.
Proof.
  unfold utils.pick.
  apply nth_satisfies; [reflexivity|].
  change (List.length utils.alphabet) with 62%nat.
  assert (r mod 62 < 62)%N by (apply N.mod_lt; discriminate).
  lia.
Qed.

Lemma draw_length (n : nat) (src : nat -> N) :
  forall pos, String.length (utils.draw n src pos) = n.
Proof.
  induction n as [|n IH]; intros pos; simpl; [reflexivity|].
  now rewrite IH.
Qed.

Lemma draw_alnum (n : nat) (src : nat -> N) :
  forall pos, all_chars is_alnum (utils.draw n src pos) = true.
Proof.
  induction n as [|n IH]; intros pos; simpl; [reflexivity|].
  now rewrite pick_alnum, IH.
Qed.

Lemma hex_digit_lower_hex (n : Z) : is_lower_hex (hex_digit n) = true.
Proof.
  unfold hex_digit.
  apply nth_satisfies; [reflexivity|].
  change (List.length hex_digits) with 16%nat.
  assert (0 <= n mod 16 < 16)%Z by (apply Z.mod_pos_bound; lia).
  lia.
Qed.

Lemma all_chars_append (p : ascii -> bool) (a b : string) :
  all_chars p (a ++ b) = all_chars p a && all_chars p b.
Proof.
  induction a as [|c a IH]; simpl; [reflexivity|].
  now rewrite IH, andb_assoc.
Qed.

Lemma length_append (a b : string) :
  String.length (a ++ b) = (String.length a + String.length b)%nat.
Proof.
  induction a as [|c a IH]; simpl; [reflexivity|].
  now rewrite IH.
Qed.

Lemma hex32_lower_hex (w : Z) : all_chars is_lower_hex (hex32 w) = true.
Proof.
  unfold hex32; cbn [all_chars].
  now rewrite !hex_digit_lower_hex.
Qed.

Lemma sha256_length (s : string) : String.length (utils.sha256 s) = 64%nat.
Proof.
  unfold utils.sha256, sha256_hex, hex_of_hash.
  now rewrite !length_append.
Qed.

Lemma sha256_lower_hex (s : string) :
  all_chars is_lower_hex (utils.sha256 s) = true.
Proof.
  unfold utils.sha256, sha256_hex, hex_of_hash.
  now rewrite !all_chars_append, !hex32_lower_hex.
Qed.

(* ================================================================== *)
(** ** The credential generator: the getter [headers] *)

Lemma headers_run (o : options) (w : world) :
  prototype.headers (ApiClient o) w
  = (Normal (auth_headers (userId o) (nonce_of w) (privateToken o)), after_nonce w).
Proof. reflexivity. Qed.

Lemma get_headers_run (o : options) (w : world) :
  prototype.get (ApiClient o) "headers" w
  = (Normal (auth_headers (userId o) (nonce_of w) (privateToken o)), after_nonce w).
Proof. reflexivity. Qed.

(** C1. Every evaluation of [headers] on a client with private token [t]
    returns an object whose [ProStore-Auth-Token] is the lowercase-hex SHA-256
    digest of [nonce ++ ":" ++ t], [nonce] being the [ProStore-Auth-Nonce] of
    the same object; the token is a function of the nonce and the secret
    alone: any other evaluation, of any client with the same secret, that
    yields the same nonce yields the same token. *)
Theorem headers_token_is_sha256_of_nonce_and_secret :
  forall (o : options) (w : world),
  exists h nonce,
    fst (prototype.headers (ApiClient o) w) = Normal h
    /\ field "ProStore-Auth-Nonce" h = Some (Str nonce)
    /\ field "ProStore-Auth-Token" h
       = Some (Str (sha256_hex (nonce ++ ":" ++ privateToken o)))
    /\ (forall (o' : options) (w' : world) (h' : value),
          fst (prototype.headers (ApiClient o') w') = Normal h' ->
          privateToken o' = privateToken o ->
          field "ProStore-Auth-Nonce" h' = Some (Str nonce) ->
          field "ProStore-Auth-Token" h' = field "ProStore-Auth-Token" h).
Proof.
  intros o w.
  exists (auth_headers (userId o) (nonce_of w) (privateToken o)), (nonce_of w).
  rewrite headers_run.
  repeat split.
  intros o' w' h' Hrun Hsecret Hnonce.
  rewrite headers_run in Hrun. cbn [fst] in Hrun.
  injection Hrun as <-.
  cbn [field auth_headers lookup String.eqb Ascii.eqb Bool.eqb] in Hnonce |- *.
  assert (Hsame : nonce_of w' = nonce_of w) by congruence.
  now rewrite Hsame, Hsecret.
Qed.

(** The token of the nonce shown in the documentation of [headers], for the
    secret ["secret"], against a digest computed outside this development. *)
Example headers_documented_nonce :
  let digits := World (fun i => N.of_nat (53 + Nat.modulo i 9)) 0 [] in
  fst (prototype.headers (ApiClient (Options "https://example.store" "u" "secret")) digits)
  = Normal (Obj [("ProStore-Auth-UserId", Str "u");
                 ("ProStore-Auth-Nonce", Str "12345678912345678912345678912345");
                 ("ProStore-Auth-Token",
                  Str "1feb8441fc2b852007b678ea8d50df4d72899734dfbabb3bfc973422d362437e")]).
Proof. vm_compute. reflexivity. Qed.

(** C2. Every object [headers] returns has exactly the three fields
    [ProStore-Auth-UserId], [ProStore-Auth-Nonce] and [ProStore-Auth-Token],
    and the first holds the configured user identifier as it was given. *)
Theorem headers_has_three_named_fields :
  forall (o : options) (w : world),
  exists fs,
    fst (prototype.headers (ApiClient o) w) = Normal (Obj fs)
    /\ keys fs = ["ProStore-Auth-UserId"; "ProStore-Auth-Nonce"; "ProStore-Auth-Token"]
    /\ lookup "ProStore-Auth-UserId" fs = Some (Str (userId o)).
Proof.
  intros o w.
  rewrite headers_run.
  eexists. split; [reflexivity|]. split; reflexivity.
Qed.

(** C9. For every user identifier and private token, the nonce [headers]
    returns has exactly 32 characters, each an uppercase letter, a lowercase
    letter or a digit, and the token has exactly 64 characters, each a digit
    or one of [a]..[f]. *)
Theorem headers_nonce_and_token_format :
  forall (o : options) (w : world),
  exists nonce token,
    fst (prototype.headers (ApiClient o) w)
    = Normal (Obj [("ProStore-Auth-UserId", Str (userId o));
                   ("ProStore-Auth-Nonce", Str nonce);
                   ("ProStore-Auth-Token", Str token)])
    /\ String.length nonce = 32%nat
    /\ all_chars is_alnum nonce = true
    /\ String.length token = 64%nat
    /\ all_chars is_lower_hex token = true.
Proof.
  intros o w.
  rewrite headers_run.
  exists (nonce_of w), (utils.sha256 (nonce_of w ++ ":" ++ privateToken o)).
  split; [reflexivity|].
  split; [apply draw_length|].
  split; [apply draw_alnum|].
  split; [apply sha256_length | apply sha256_lower_hex].
Qed.

(* ================================================================== *)
(** ** Endpoint URLs: the method [url] *)

Lemma append_assoc (a b c : string) : (a ++ b) ++ c = a ++ b ++ c.
Proof.
  induction a as [|x a IH]; simpl; [reflexivity|].
  now rewrite IH.
Qed.

(** What the body of [url] computes when it runs with [this] bound to a
    constructed client. *)
Lemma url_run (o : options) (endpoint : string) (w : world) :
  prototype.url (ApiClient o) (Some endpoint) w
  = (Normal (Str (replace_trailing_slashes (url o) ++ "/api/"
                  ++ replace_leading_slash endpoint)), w).
Proof.
  unfold prototype.url, bind; cbn.
  now rewrite append_assoc.
Qed.

Lemma replace_leading_slash_strips (s : string) :
  starts_with_two_slashes s = false ->
  replace_leading_slash s = strip_leading_slashes s.
Proof.
  destruct s as [|a [|b r]]; cbn [starts_with_two_slashes replace_leading_slash
                                    strip_leading_slashes]; intros Htwo.
  - reflexivity.
  - now destruct (is_slash a).
  - destruct (is_slash a); [|reflexivity].
    cbn [andb] in Htwo. now rewrite Htwo.
Qed.

Lemma replace_trailing_slashes_empty (s : string) :
  replace_trailing_slashes s = "" -> all_slashes s = true.
Proof.
  destruct s as [|c r]; [reflexivity|].
  cbn [replace_trailing_slashes].
  destruct (all_slashes (String c r)); [reflexivity | discriminate].
Qed.

Lemma replace_trailing_slashes_ends (s : string) :
  ends_with_slash (replace_trailing_slashes s) = false.
Proof.
  induction s as [|c r IH]; [reflexivity|].
  cbn [replace_trailing_slashes].
  destruct (all_slashes (String c r)) eqn:Hall; [reflexivity|].
  cbn [ends_with_slash].
  destruct (replace_trailing_slashes r) as [|c' r'] eqn:Hr; [|exact IH].
  apply replace_trailing_slashes_empty in Hr.
  cbn [all_slashes] in Hall. rewrite Hr, andb_true_r in Hall. exact Hall.
Qed.

Lemma strip_leading_slashes_starts (s : string) :
  starts_with_slash (strip_leading_slashes s) = false.
Proof.
  induction s as [|c r IH]; [reflexivity|].
  cbn [strip_leading_slashes].
  destruct (is_slash c) eqn:Hc; [exact IH|].
  exact Hc.
Qed.

(** C3 as the specification words it fails: an endpoint that starts with two
    slashes keeps one of them, and the URL has two slashes after [api]. *)
Lemma url_keeps_second_leading_slash :
  fst (prototype.url (ApiClient (Options "https://x.test" "u" "t"))
                     (Some "//admin/products") (quiet 0))
  = Normal (Str "https://x.test/api//admin/products")
  /\ url_shape "https://x.test" "//admin/products" = "https://x.test/api/admin/products"
  /\ ~ (forall (o : options) (endpoint : string) (w : world),
          endpoint <> "" ->
          fst (prototype.url (ApiClient o) (Some endpoint) w)
          = Normal (Str (url_shape (url o) endpoint))).
Proof.
  split; [reflexivity|]. split; [reflexivity|].
  intros H.
  specialize (H (Options "https://x.test" "u" "t") "//admin/products" (quiet 0)).
  discriminate H. discriminate.
Qed.

(** C3, amended. For every base URL and every non-empty endpoint that does
    not start with two slashes, the body of [url], run on a client constructed
    from that base URL, returns the base without its trailing slashes, then
    [/api/], then the endpoint without its leading slash; the first part
    does not end with a slash and the last does not start with one, so one
    slash stands between the segments. *)
Theorem url_shape_for_single_leading_slash :
  forall (o : options) (endpoint : string) (w : world),
    endpoint <> "" ->
    starts_with_two_slashes endpoint = false ->
    prototype.url (ApiClient o) (Some endpoint) w
    = (Normal (Str (replace_trailing_slashes (url o) ++ "/api/"
                    ++ strip_leading_slashes endpoint)), w)
    /\ ends_with_slash (replace_trailing_slashes (url o)) = false
    /\ starts_with_slash (strip_leading_slashes endpoint) = false.
Proof.
  intros o endpoint w _ Hone.
  rewrite url_run.
  rewrite (replace_leading_slash_strips endpoint Hone).
  split; [reflexivity|].
  split; [apply replace_trailing_slashes_ends | apply strip_leading_slashes_starts].
Qed.

Lemma url_shape_examples :
  prototype.url (ApiClient (Options "https://x.test/" "u" "t"))
    (Some "/admin/products") (quiet 0)
  = (Normal (Str "https://x.test/api/admin/products"), quiet 0)
  /\ prototype.url (ApiClient (Options "https://x.test" "u" "t"))
       (Some "admin/products") (quiet 0)
     = (Normal (Str "https://x.test/api/admin/products"), quiet 0).
Proof.
  split.
  - exact (proj1 (url_shape_for_single_leading_slash
                    (Options "https://x.test/" "u" "t") "/admin/products" (quiet 0)
                    ltac:(discriminate) eq_refl)).
  - exact (proj1 (url_shape_for_single_leading_slash
                    (Options "https://x.test" "u" "t") "admin/products" (quiet 0)
                    ltac:(discriminate) eq_refl)).
Defined.

(* ================================================================== *)
(** ** The method [request] on a constructed client *)

Lemma get_url_is_own_string (o : options) (w : world) :
  prototype.get (ApiClient o) "url" w
  = (Normal (Str (replace_trailing_slashes (url o))), w).
Proof. reflexivity. Qed.

Lemma get_request_is_method (o : options) (w : world) :
  prototype.get (ApiClient o) "request" w = (Normal (Fun FnRequest), w).
Proof. reflexivity. Qed.

Lemma request_throws (o : options) (method : option string) (endpoint : string) (w : world) :
  endpoint <> "" ->
  prototype.request (ApiClient o) method (Some endpoint) w = (Throw url_not_callable, w).
Proof.
  intros Hne.
  destruct endpoint as [|c r]; [congruence|].
  reflexivity.
Qed.

Lemma request_without_endpoint (o : options) (method endpoint : option string) (w : world) :
  truthy (arg endpoint) = false ->
  prototype.request (ApiClient o) method endpoint w
  = (Normal (Defaults (defaults_without_url o method w)), after_nonce w).
Proof.
  intros Hfalsy.
  unfold prototype.request, bind.
  rewrite Hfalsy.
  reflexivity.
Qed.

Lemma verb_method_throws (transport : transport_model)
    (m : verb) (o : options) (endpoint : string) (opts cb : value) (w : world) :
  endpoint <> "" ->
  prototype.verb_method transport m (ApiClient o) (Some endpoint) opts cb w
  = (Throw url_not_callable, w).
Proof.
  intros Hne.
  unfold prototype.verb_method.
  destruct (prototype.resolve opts cb) as [opts' cb'].
  unfold bind at 1. rewrite get_request_is_method.
  unfold bind at 1. now rewrite request_throws.
Qed.

(** C4, at the call the documentation of [request] shows,
    [client.request('post', 'admin/storage/index.html')]: no request
    descriptor is returned, the call throws a TypeError, before any header is
    computed. *)
Theorem request_documented_call_throws :
  exists e,
    is_TypeError e = true
    /\ prototype.request (ApiClient sample_options)
         (Some "post") (Some "admin/storage/index.html") (quiet 0)
       = (Throw e, quiet 0).
Proof.
  exists url_not_callable. split; reflexivity.
Qed.

(** C5, at the call the documentation of the verb methods shows,
    [client.get('echo', function(err, data) { })]: whatever the transport,
    the method throws a TypeError and nothing is sent and no callback is
    called. *)
Theorem get_documented_call_throws_without_calling_back :
  forall (transport : transport_model),
  exists e,
    is_TypeError e = true
    /\ prototype.verb_method transport GET (ApiClient sample_options)
         (Some "echo") (Fun (External 0)) Undefined (quiet 0)
       = (Throw e, quiet 0)
    /\ log (quiet 0) = [].
Proof.
  intros transport.
  exists url_not_callable.
  split; [reflexivity|]. split; [|reflexivity].
  apply verb_method_throws. discriminate.
Qed.

(** C6. On every client the constructor builds, the own property [url] is
    the configured URL without its trailing slashes, a string, and it is what
    [this.url] finds, not the method [url] of the prototype; so for every
    method and every non-empty endpoint [request] throws a TypeError at
    [this.url(endpoint)], and so does every verb method, the world left as it
    was. *)
Theorem own_url_shadows_method_url :
  forall (transport : transport_model)
         (o : options) (method : option string) (m : verb) (endpoint : string)
         (opts cb : value) (w : world),
    endpoint <> "" ->
    lookup "url" (ApiClient o) = Some (Str (replace_trailing_slashes (url o)))
    /\ lookup "url" prototype.data = Some (Fun FnUrl)
    /\ prototype.get (ApiClient o) "url" w
       = (Normal (Str (replace_trailing_slashes (url o))), w)
    /\ exists e,
         is_TypeError e = true
         /\ prototype.request (ApiClient o) method (Some endpoint) w = (Throw e, w)
         /\ prototype.verb_method transport m (ApiClient o) (Some endpoint) opts cb w
            = (Throw e, w).
Proof.
  intros transport o method m endpoint opts cb w Hne.
  split; [reflexivity|]. split; [reflexivity|]. split; [reflexivity|].
  exists url_not_callable.
  split; [reflexivity|].
  split; [now apply request_throws | now apply verb_method_throws].
Qed.

Lemma own_url_shadows_method_url_on_echo :
  lookup "url" (ApiClient sample_options) = Some (Str "https://example.store")
  /\ lookup "url" prototype.data = Some (Fun FnUrl)
  /\ prototype.get (ApiClient sample_options) "url" (quiet 0)
     = (Normal (Str "https://example.store"), quiet 0)
  /\ exists e,
       is_TypeError e = true
       /\ prototype.request (ApiClient sample_options) (Some "GET") (Some "echo") (quiet 0)
          = (Throw e, quiet 0)
       /\ prototype.verb_method (answering 200 Null) GET (ApiClient sample_options)
            (Some "echo") (Obj []) (Fun (External 0)) (quiet 0)
          = (Throw e, quiet 0).
Proof.
  exact (own_url_shadows_method_url (answering 200 Null) sample_options (Some "GET") GET
           "echo" (Obj []) (Fun (External 0)) (quiet 0) ltac:(discriminate)).
Defined.

(* ================================================================== *)
(** ** Completion of a verb method *)

Section Completion.

Variable transport : transport_model.

(** A verb method whose [request] returned the defaults [d]: the request is
    sent, and the handler runs on what the transport completes with. *)
Lemma verb_method_sends (m : verb) (o : options) (endpoint : option string)
    (opts cb opts' cb' : value) (w w1 : world) (d : object)
    (err : value) (res : option response) (data : value) :
  prototype.resolve opts cb = (opts', cb') ->
  prototype.request (ApiClient o) (Some (verb_name m)) endpoint w
  = (Normal (Defaults d), w1) ->
  transport d opts' = (err, res, data) ->
  prototype.verb_method transport m (ApiClient o) endpoint opts cb w
  = bind (later (prototype.completion_handler cb' err res data))
         (fun _ => ret Undefined)
         (World (entropy w1) (drawn w1) (log w1 ++ [Dispatch d opts'])).
Proof.
  intros Hresolve Hrequest Htransport.
  unfold prototype.verb_method.
  rewrite Hresolve.
  unfold bind at 1. rewrite get_request_is_method.
  unfold bind at 1. rewrite Hrequest.
  unfold prototype.send, bind at 1, emit.
  unfold bind at 1.
  now rewrite Htransport.
Qed.

Lemma handler_calls_back (w : world) (d : object) (opts : value) (id : nat)
    (args : list value) :
  bind (later (call_value "cb" (Fun (External id)) args)) (fun _ => ret Undefined)
       (World (entropy w) (drawn w) (log w ++ [Dispatch d opts]))
  = (Normal Undefined, completed w d opts id args).
Proof.
  unfold bind, later, call_value, emit, ret, completed; cbn.
  now rewrite <- app_assoc.
Qed.

End Completion.

(** C7. For every verb-method call whose request is sent and whose transport
    completes without error and with a response: if the status code is 400
    or more, the callback is called once, with one argument, an [Error] whose
    message is ["Server returned "] followed by the status code in decimal
    (the body is not passed on); if it is below 400, the callback is called
    once with [null] and the body. *)
Theorem verb_method_reports_status :
  forall (transport : transport_model)
         (m : verb) (o : options) (endpoint : option string)
         (opts cb opts' : value) (id : nat) (w w1 : world) (d : object)
         (err : value) (status : Z) (body : value),
    prototype.resolve opts cb = (opts', Fun (External id)) ->
    prototype.request (ApiClient o) (Some (verb_name m)) endpoint w
    = (Normal (Defaults d), w1) ->
    transport d opts' = (err, Some (Response status), body) ->
    truthy err = false ->
    ((400 <= status)%Z ->
       prototype.verb_method transport m (ApiClient o) endpoint opts cb w
       = (Normal Undefined,
          completed w1 d opts' id
            [Error "Error" ("Server returned " ++ decimal status)]))
    /\ ((status < 400)%Z ->
          prototype.verb_method transport m (ApiClient o) endpoint opts cb w
          = (Normal Undefined, completed w1 d opts' id [Null; body])).
Proof.
  intros transport m o endpoint opts cb opts' id w w1 d err status body
         Hresolve Hrequest Htransport Hok.
  rewrite (verb_method_sends transport m o endpoint opts cb opts' _ w w1 d _ _ _
             Hresolve Hrequest Htransport).
  unfold prototype.completion_handler. rewrite Hok. cbn [statusCode].
  split; intros Hstatus.
  - apply Z.leb_le in Hstatus. rewrite Hstatus. apply handler_calls_back.
  - apply Z.leb_gt in Hstatus. rewrite Hstatus. apply handler_calls_back.
Qed.

Lemma verb_method_reports_status_404_and_200 :
  prototype.verb_method (answering 404 (Obj [("ok", Bool false)])) GET
    (ApiClient sample_options) None echo_options (Fun (External 0)) (quiet 0)
  = (Normal Undefined,
     completed (after_nonce (quiet 0))
       (defaults_without_url sample_options (Some "get") (quiet 0))
       echo_options 0 [Error "Error" "Server returned 404"])
  /\ prototype.verb_method (answering 200 (Obj [("ok", Bool true)])) GET
       (ApiClient sample_options) None echo_options (Fun (External 0)) (quiet 0)
     = (Normal Undefined,
        completed (after_nonce (quiet 0))
          (defaults_without_url sample_options (Some "get") (quiet 0))
          echo_options 0 [Null; Obj [("ok", Bool true)]]).
Proof.
  split.
  - exact (proj1 (verb_method_reports_status
             (answering 404 (Obj [("ok", Bool false)])) GET sample_options None
             echo_options (Fun (External 0)) echo_options 0 (quiet 0)
             (after_nonce (quiet 0))
             (defaults_without_url sample_options (Some "get") (quiet 0))
             Null 404 (Obj [("ok", Bool false)])
             eq_refl eq_refl eq_refl eq_refl) ltac:(lia)).
  - exact (proj2 (verb_method_reports_status
             (answering 200 (Obj [("ok", Bool true)])) GET sample_options None
             echo_options (Fun (External 0)) echo_options 0 (quiet 0)
             (after_nonce (quiet 0))
             (defaults_without_url sample_options (Some "get") (quiet 0))
             Null 200 (Obj [("ok", Bool true)])
             eq_refl eq_refl eq_refl eq_refl) ltac:(lia)).
Defined.

(** C8. For every verb-method call whose request is sent and whose transport
    completes with an error (a truthy first argument), the callback is called
    once, with that error as its only argument, and nothing else happens:
    the response and the body are not looked at. *)
Theorem verb_method_passes_transport_error :
  forall (transport : transport_model)
         (m : verb) (o : options) (endpoint : option string)
         (opts cb opts' : value) (id : nat) (w w1 : world) (d : object)
         (err : value) (res : option response) (data : value),
    prototype.resolve opts cb = (opts', Fun (External id)) ->
    prototype.request (ApiClient o) (Some (verb_name m)) endpoint w
    = (Normal (Defaults d), w1) ->
    transport d opts' = (err, res, data) ->
    truthy err = true ->
    prototype.verb_method transport m (ApiClient o) endpoint opts cb w
    = (Normal Undefined, completed w1 d opts' id [err]).
Proof.
  intros transport m o endpoint opts cb opts' id w w1 d err res data
         Hresolve Hrequest Htransport Hfailed.
  rewrite (verb_method_sends transport m o endpoint opts cb opts' _ w w1 d _ _ _
             Hresolve Hrequest Htransport).
  unfold prototype.completion_handler. rewrite Hfailed.
  apply handler_calls_back.
Qed.

Lemma verb_method_passes_network_failure :
  prototype.verb_method (failing network_failure) POST
    (ApiClient sample_options) (Some "") (Fun (External 7)) Undefined (quiet 0)
  = (Normal Undefined,
     completed (after_nonce (quiet 0))
       (defaults_without_url sample_options (Some "post") (quiet 0))
       (Obj []) 7 [network_failure]).
Proof.
  exact (verb_method_passes_transport_error
           (failing network_failure) POST sample_options (Some "")
           (Fun (External 7)) Undefined (Obj []) 7 (quiet 0)
           (after_nonce (quiet 0))
           (defaults_without_url sample_options (Some "post") (quiet 0))
           network_failure None Undefined
           eq_refl eq_refl eq_refl eq_refl).
Defined.

(** C10. For every verb method, every endpoint and every function [cb],
    calling the method with [cb] in the place of the options, whatever
    follows it, is calling it with empty options and [cb] as the callback:
    the two calls complete alike and leave the same world. *)
Theorem verb_method_overload :
  forall (transport : transport_model)
         (m : verb) (this : object) (endpoint : option string)
         (cb third : value) (w : world),
    typeof cb = "function" ->
    prototype.resolve cb third = (Obj [], cb)
    /\ prototype.verb_method transport m this endpoint cb third w
       = prototype.verb_method transport m this endpoint (Obj []) cb w.
Proof.
  intros transport m this endpoint cb third w Hfun.
  assert (Hresolve : prototype.resolve cb third = (Obj [], cb)).
  { unfold prototype.resolve. now rewrite Hfun. }
  split; [exact Hresolve|].
  unfold prototype.verb_method.
  rewrite Hresolve. reflexivity.
Qed.

Lemma verb_method_overload_on_get :
  prototype.resolve (Fun (External 0)) Undefined = (Obj [], Fun (External 0))
  /\ prototype.verb_method (answering 200 (Obj [("ok", Bool true)])) GET
       (ApiClient sample_options) None (Fun (External 0)) Undefined (quiet 0)
     = prototype.verb_method (answering 200 (Obj [("ok", Bool true)])) GET
         (ApiClient sample_options) None (Obj []) (Fun (External 0)) (quiet 0).
Proof.
  exact (verb_method_overload (answering 200 (Obj [("ok", Bool true)])) GET
           (ApiClient sample_options) None (Fun (External 0)) Undefined (quiet 0)
           eq_refl).
Defined.

(* ================================================================== *)
(** ** The constructor and the getter [baseUrl] *)

Lemma all_slashes_is_run (s : string) :
  all_slashes s = true -> s = slashes (String.length s).
Proof.
  induction s as [|c r IH]; [reflexivity|].
  cbn [all_slashes String.length slashes]. intros Hall.
  apply andb_true_iff in Hall as [Hc Hr].
  apply Ascii.eqb_eq in Hc. subst c.
  now rewrite <- IH.
Qed.

Lemma all_slashes_run (n : nat) : all_slashes (slashes n) = true.
Proof. induction n as [|n IH]; [reflexivity | exact IH]. Qed.

Lemma all_slashes_append (s : string) (n : nat) :
  all_slashes (s ++ slashes n) = all_slashes s.
Proof.
  induction s as [|c r IH]; cbn [append all_slashes].
  - apply all_slashes_run.
  - now rewrite IH.
Qed.

Lemma replace_trailing_slashes_run (n : nat) :
  replace_trailing_slashes (slashes n) = "".
Proof.
  destruct n as [|n]; [reflexivity|].
  cbn [slashes replace_trailing_slashes].
  change (all_slashes (String "/" (slashes n))) with (all_slashes (slashes n)).
  now rewrite all_slashes_run.
Qed.

Lemma replace_trailing_slashes_append (s : string) (n : nat) :
  replace_trailing_slashes (s ++ slashes n) = replace_trailing_slashes s.
Proof.
  induction s as [|c r IH].
  - apply replace_trailing_slashes_run.
  - cbn [append replace_trailing_slashes].
    change (String c (r ++ slashes n)) with (String c r ++ slashes n) at 1.
    rewrite all_slashes_append.
    destruct (all_slashes (String c r)); [reflexivity|].
    now rewrite IH.
Qed.

Lemma replace_trailing_slashes_splits (s : string) :
  exists n, s = replace_trailing_slashes s ++ slashes n.
Proof.
  induction s as [|c r [n IH]].
  - now exists 0%nat.
  - cbn [replace_trailing_slashes].
    destruct (all_slashes (String c r)) eqn:Hall.
    + exists (String.length (String c r)).
      now apply all_slashes_is_run.
    + exists n. cbn [append]. now rewrite <- IH.
Qed.

Lemma all_slashes_ends (s : string) :
  all_slashes s = true -> s <> "" -> ends_with_slash s = true.
Proof.
  induction s as [|c r IH]; [congruence|].
  cbn [all_slashes]. intros Hall _.
  apply andb_true_iff in Hall as [Hc Hr].
  destruct r as [|c' r']; [exact Hc|].
  apply IH; [exact Hr | discriminate].
Qed.

Lemma replace_trailing_slashes_fixed (s : string) :
  ends_with_slash s = false -> replace_trailing_slashes s = s.
Proof.
  induction s as [|c r IH]; [reflexivity|].
  intros Hends.
  cbn [replace_trailing_slashes].
  destruct (all_slashes (String c r)) eqn:Hall.
  - rewrite all_slashes_ends in Hends; [discriminate | exact Hall | discriminate].
  - f_equal. destruct r as [|c' r']; [reflexivity|].
    apply IH. exact Hends.
Qed.

(** X1. The constructor removes slashes from the end of the configured URL
    and nothing else: the configured URL is the own property [url] followed
    by a run of slashes, and the own property does not end with a slash. *)
Theorem constructor_removes_only_trailing_slashes :
  forall (o : options),
  exists kept n,
    lookup "url" (ApiClient o) = Some (Str kept)
    /\ url o = kept ++ slashes n
    /\ ends_with_slash kept = false.
Proof.
  intros o.
  destruct (replace_trailing_slashes_splits (url o)) as [n Hsplit].
  exists (replace_trailing_slashes (url o)), n.
  split; [reflexivity|].
  split; [exact Hsplit | apply replace_trailing_slashes_ends].
Qed.

(** X2. Slashes added at the end of the configured URL change nothing: the
    constructor builds the same client, and normalising twice is normalising
    once. *)
Theorem constructor_ignores_trailing_slashes :
  forall (base user secret : string) (n : nat),
    ApiClient (Options (base ++ slashes n) user secret)
    = ApiClient (Options base user secret)
    /\ replace_trailing_slashes (replace_trailing_slashes base)
       = replace_trailing_slashes base.
Proof.
  intros base user secret n.
  split.
  - unfold ApiClient; cbn [url userId privateToken].
    now rewrite replace_trailing_slashes_append.
  - apply replace_trailing_slashes_fixed, replace_trailing_slashes_ends.
Qed.

(** X3. On a client whose configured URL does not end with a slash, reading
    [baseUrl] finds the getter of the prototype and returns that URL followed
    by [/api], and touches nothing. *)
Theorem baseUrl_appends_api :
  forall (o : options) (w : world),
    ends_with_slash (url o) = false ->
    prototype.get (ApiClient o) "baseUrl" w = (Normal (Str (url o ++ "/api")), w).
Proof.
  intros o w Hends.
  unfold prototype.get; cbn [lookup ApiClient String.eqb Ascii.eqb Bool.eqb].
  unfold prototype.baseUrl, bind; cbn.
  now rewrite (replace_trailing_slashes_fixed _ Hends).
Qed.

Lemma baseUrl_appends_api_on_sample :
  prototype.get (ApiClient sample_options) "baseUrl" (quiet 0)
  = (Normal (Str "https://example.store/api"), quiet 0).
Proof.
  exact (baseUrl_appends_api sample_options (quiet 0) eq_refl).
Defined.

(* ================================================================== *)
(** ** The methods [url] and [request] at their edges *)

Lemma replace_leading_slash_fixed (s : string) :
  starts_with_slash s = false -> replace_leading_slash s = s.
Proof.
  destruct s as [|c r]; [reflexivity|].
  cbn [starts_with_slash replace_leading_slash]. now intros ->.
Qed.

(** X4. The slash that starts an endpoint is optional: for every [this] and
    every endpoint that does not start with a slash, the body of [url] does
    the same with and without a slash put in front of it. *)
Theorem url_leading_slash_is_optional :
  forall (this : object) (endpoint : string) (w : world),
    starts_with_slash endpoint = false ->
    prototype.url this (Some (String "/" endpoint)) w
    = prototype.url this (Some endpoint) w.
Proof.
  intros this endpoint w Hstart.
  unfold prototype.url.
  change (replace_leading_slash (String "/" endpoint)) with endpoint.
  now rewrite (replace_leading_slash_fixed endpoint Hstart).
Qed.

Lemma url_leading_slash_is_optional_on_sample :
  prototype.url (ApiClient sample_options) (Some "/admin/products") (quiet 0)
  = prototype.url (ApiClient sample_options) (Some "admin/products") (quiet 0).
Proof.
  exact (url_leading_slash_is_optional (ApiClient sample_options) "admin/products"
           (quiet 0) eq_refl).
Defined.

(** X5. With the endpoint left out or empty, [request] on a constructed
    client does not call [this.url] and does not throw: it returns defaults
    of four fields, [url] undefined, [headers] the headers of a nonce drawn
    at this call, [json] true, and [method] undefined when the method too is
    left out or empty; 32 numbers of the random source are consumed and
    nothing is sent. *)
Theorem request_without_endpoint_has_no_url :
  forall (o : options) (method endpoint : option string) (w : world),
    truthy (arg endpoint) = false ->
    exists d,
      prototype.request (ApiClient o) method endpoint w
      = (Normal (Defaults d), World (entropy w) (drawn w + 32) (log w))
      /\ keys d = ["method"; "url"; "headers"; "json"]
      /\ lookup "url" d = Some Undefined
      /\ lookup "headers" d
         = Some (auth_headers (userId o) (nonce_of w) (privateToken o))
      /\ lookup "json" d = Some (Bool true)
      /\ (truthy (arg method) = false -> lookup "method" d = Some Undefined).
Proof.
  intros o method endpoint w Hfalsy.
  exists (defaults_without_url o method w).
  split; [now apply request_without_endpoint|].
  repeat split.
  intros Hmethod. cbn [defaults_without_url lookup String.eqb Ascii.eqb Bool.eqb].
  now rewrite Hmethod.
Qed.

Lemma request_without_endpoint_has_no_url_on_sample :
  exists d,
    prototype.request (ApiClient sample_options) None None (quiet 0)
    = (Normal (Defaults d), World (entropy (quiet 0)) (drawn (quiet 0) + 32) (log (quiet 0)))
    /\ keys d = ["method"; "url"; "headers"; "json"]
    /\ lookup "url" d = Some Undefined
    /\ lookup "headers" d
       = Some (auth_headers (userId sample_options) (nonce_of (quiet 0))
                            (privateToken sample_options))
    /\ lookup "json" d = Some (Bool true)
    /\ (truthy (arg None) = false -> lookup "method" d = Some Undefined).
Proof.
  exact (request_without_endpoint_has_no_url sample_options None None
           (quiet 0) eq_refl).
Defined.

Lemma lower_ascii_not_upper (c : ascii) : not_upper (lower_ascii c) = true.
Proof.
  destruct c as [[] [] [] [] [] [] [] []]; reflexivity.
Qed.

Lemma lower_ascii_fixed (c : ascii) :
  not_upper c = true -> lower_ascii c = c.
Proof.
  destruct c as [[] [] [] [] [] [] [] []]; intros H; try reflexivity; discriminate H.
Qed.

Lemma toLowerCase_not_upper (s : string) :
  all_chars not_upper (toLowerCase s) = true.
Proof.
  induction s as [|c r IH]; [reflexivity|].
  cbn [toLowerCase all_chars]. now rewrite lower_ascii_not_upper, IH.
Qed.

Lemma toLowerCase_length (s : string) :
  String.length (toLowerCase s) = String.length s.
Proof.
  induction s as [|c r IH]; [reflexivity|].
  cbn [toLowerCase String.length]. now rewrite IH.
Qed.

Lemma toLowerCase_fixed (s : string) :
  all_chars not_upper s = true -> toLowerCase s = s.
Proof.
  induction s as [|c r IH]; [reflexivity|].
  cbn [all_chars toLowerCase]. intros Hall.
  apply andb_true_iff in Hall as [Hc Hr].
  now rewrite (lower_ascii_fixed c Hc), (IH Hr).
Qed.

(** X6. The method a request carries: for a non-empty method name made of
    ASCII characters, the defaults hold a string of the same length without
    any uppercase letter, the name itself when it had none. *)
Theorem request_method_is_lowercase :
  forall (o : options) (method : string) (endpoint : option string) (w : world),
    truthy (arg endpoint) = false ->
    method <> "" ->
    all_chars is_ascii7 method = true ->
    exists d lowered,
      fst (prototype.request (ApiClient o) (Some method) endpoint w)
      = Normal (Defaults d)
      /\ lookup "method" d = Some (Str lowered)
      /\ String.length lowered = String.length method
      /\ all_chars not_upper lowered = true
      /\ (all_chars not_upper method = true -> lowered = method).
Proof.
  intros o method endpoint w Hfalsy Hne _.
  exists (defaults_without_url o (Some method) w), (toLowerCase method).
  rewrite (request_without_endpoint o (Some method) endpoint w Hfalsy).
  split; [reflexivity|].
  split; [destruct method; [congruence | reflexivity]|].
  split; [apply toLowerCase_length|].
  split; [apply toLowerCase_not_upper | apply toLowerCase_fixed].
Qed.

Lemma request_method_is_lowercase_on_sample :
  exists d lowered,
    fst (prototype.request (ApiClient sample_options) (Some "PoSt") (Some "") (quiet 0))
    = Normal (Defaults d)
    /\ lookup "method" d = Some (Str lowered)
    /\ String.length lowered = String.length "PoSt"
    /\ all_chars not_upper lowered = true
    /\ (all_chars not_upper "PoSt" = true -> lowered = "PoSt").
Proof.
  exact (request_method_is_lowercase sample_options "PoSt" (Some "")
           (quiet 0) eq_refl ltac:(discriminate) eq_refl).
Defined.

(* ================================================================== *)
(** ** The getter [headers], read again *)

Lemma headers_twice_run (o : options) (w : world) :
  headers_twice (ApiClient o) w
  = (Normal
       (auth_headers (userId o)
          (utils.draw 32 (entropy w) (drawn w)) (privateToken o),
        auth_headers (userId o)
          (utils.draw 32 (entropy w) (drawn w + 32)) (privateToken o)),
     World (entropy w) (drawn w + 32 + 32) (log w)).
Proof.
  unfold headers_twice, bind.
  rewrite get_headers_run.
  rewrite get_headers_run.
  reflexivity.
Qed.

(** X7. [headers] keeps nothing from one read to the next: two reads in a
    row on a constructed client consume 64 numbers of the random source, the
    first nonce is made of the first 32 and the second of the 32 that follow;
    both objects carry the same user identifier. *)
Theorem headers_are_recomputed_at_each_read :
  forall (o : options) (w : world),
    headers_twice (ApiClient o) w
    = (Normal
         (auth_headers (userId o)
            (utils.draw 32 (entropy w) (drawn w)) (privateToken o),
          auth_headers (userId o)
            (utils.draw 32 (entropy w) (drawn w + 32)) (privateToken o)),
       World (entropy w) (drawn w + 32 + 32) (log w)).
Proof.
  intros o w. apply headers_twice_run.
Qed.

Lemma draw_differs (n : nat) (src : nat -> N) :
  forall (p q i : nat),
    (i < n)%nat ->
    utils.pick (src (p + i)%nat) <> utils.pick (src (q + i)%nat) ->
    utils.draw n src p <> utils.draw n src q.
Proof.
  induction n as [|n IH]; intros p q i Hi Hpick; [lia|].
  cbn [utils.draw]. intros Heq. injection Heq as Hhead Htail.
  destruct i as [|i].
  - rewrite !Nat.add_0_r in Hpick. contradiction.
  - apply (IH (S p) (S q) i); [lia | | exact Htail].
    now rewrite <- !Nat.add_succ_comm in Hpick.
Qed.

(** X8. Two reads of [headers] in a row return different nonces as soon as
    the random source yields, at one of the 32 positions, a different
    character for the second read than for the first. *)
Theorem headers_nonces_differ_when_the_source_does :
  forall (o : options) (w : world) (i : nat),
    (i < 32)%nat ->
    utils.pick (entropy w (drawn w + i)%nat)
    <> utils.pick (entropy w (drawn w + 32 + i)%nat) ->
    exists first second n1 n2,
      fst (headers_twice (ApiClient o) w) = Normal (first, second)
      /\ field "ProStore-Auth-Nonce" first = Some (Str n1)
      /\ field "ProStore-Auth-Nonce" second = Some (Str n2)
      /\ n1 <> n2.
Proof.
  intros o w i Hi Hpick.
  rewrite headers_twice_run.
  do 4 eexists.
  split; [reflexivity|]. split; [reflexivity|]. split; [reflexivity|].
  exact (draw_differs 32 (entropy w) (drawn w) (drawn w + 32) i Hi Hpick).
Qed.

Lemma headers_nonces_differ_on_counting_source :
  exists first second n1 n2,
    fst (headers_twice (ApiClient sample_options) (World N.of_nat 0 []))
    = Normal (first, second)
    /\ field "ProStore-Auth-Nonce" first = Some (Str n1)
    /\ field "ProStore-Auth-Nonce" second = Some (Str n2)
    /\ n1 <> n2.
Proof.
  exact (headers_nonces_differ_when_the_source_does sample_options
           (World N.of_nat 0 []) 0 ltac:(lia) ltac:(discriminate)).
Defined.

(* ================================================================== *)
(** ** What a verb method sends and whom it calls *)







Lemma later_call_of_non_function (what : string) (f : value) (args : list value)
    (w : world) :
  callable f = false ->
  later (call_value what f args) w
  = emit (Uncaught (Error "TypeError" (what ++ " is not a function"))) w.
Proof.
  destruct f as [| | b | n | s | fs | name msg | g | d]; intros Hcall;
    try reflexivity; discriminate Hcall.
Qed.

(** X10. When what stands for the callback is not a function (left out, for
    one), a verb method whose request is sent still returns, and the
    completion, whatever the transport completes with, ends in a TypeError
    that no one catches: one dispatch, then the uncaught exception, and no
    call of anything. *)
Theorem verb_method_without_callback_fails_late :
  forall (transport : transport_model) (m : verb) (o : options)
         (endpoint : option string) (opts cb opts' cb' : value)
         (w w1 : world) (d : object),
    prototype.resolve opts cb = (opts', cb') ->
    callable cb' = false ->
    prototype.request (ApiClient o) (Some (verb_name m)) endpoint w
    = (Normal (Defaults d), w1) ->
    exists e,
      is_TypeError e = true
      /\ prototype.verb_method transport m (ApiClient o) endpoint opts cb w
         = (Normal Undefined,
            World (entropy w1) (drawn w1) (log w1 ++ [Dispatch d opts'; Uncaught e])).
Proof.
  intros transport m o endpoint opts cb opts' cb' w w1 d Hresolve Hcall Hrequest.
  destruct (transport d opts') as [[err res] data] eqn:Htransport.
  rewrite (verb_method_sends transport m o endpoint opts cb opts' cb' w w1 d
             err res data Hresolve Hrequest Htransport).
  unfold prototype.completion_handler.
  assert (Hlate : forall e0 : value,
            bind (emit (Uncaught e0)) (fun _ => ret Undefined)
                 (World (entropy w1) (drawn w1) (log w1 ++ [Dispatch d opts']))
            = (Normal Undefined,
               World (entropy w1) (drawn w1) (log w1 ++ [Dispatch d opts'; Uncaught e0]))).
  { intros e0. unfold bind, emit, ret; cbn. now rewrite <- app_assoc. }
  destruct (truthy err).
  - eexists. split; [|unfold bind at 1; rewrite later_call_of_non_function by exact Hcall;
                      apply Hlate]. reflexivity.
  - destruct res as [r|].
    + destruct (400 <=? statusCode r)%Z;
        (eexists; split; [|unfold bind at 1;
                           rewrite later_call_of_non_function by exact Hcall;
                           apply Hlate]; reflexivity).
    + eexists. split; [|apply Hlate]. reflexivity.
Qed.

Lemma verb_method_without_callback_on_sample :
  exists e,
    is_TypeError e = true
    /\ prototype.verb_method (answering 200 Null) GET (ApiClient sample_options)
         None echo_options Undefined (quiet 0)
       = (Normal Undefined,
          World (entropy (after_nonce (quiet 0))) (drawn (after_nonce (quiet 0)))
            (log (after_nonce (quiet 0))
             ++ [Dispatch (defaults_without_url sample_options (Some "get") (quiet 0))
                          echo_options;
                 Uncaught e])).
Proof.
  exact (verb_method_without_callback_fails_late (answering 200 Null) GET
           sample_options None echo_options Undefined echo_options Undefined
           (quiet 0) (after_nonce (quiet 0))
           (defaults_without_url sample_options (Some "get") (quiet 0))
           eq_refl eq_refl eq_refl).
Defined.

(** X11. When the transport completes with neither an error nor a response,
    the completion handler reads [statusCode] of nothing: a verb method whose
    request is sent returns, the TypeError is caught by no one, and the
    callback, whatever it is, is not called. *)
Theorem verb_method_without_response_never_calls_back :
  forall (transport : transport_model) (m : verb) (o : options)
         (endpoint : option string) (opts cb opts' cb' : value)
         (w w1 : world) (d : object) (err data : value),
    prototype.resolve opts cb = (opts', cb') ->
    prototype.request (ApiClient o) (Some (verb_name m)) endpoint w
    = (Normal (Defaults d), w1) ->
    transport d opts' = (err, None, data) ->
    truthy err = false ->
    exists e,
      is_TypeError e = true
      /\ prototype.verb_method transport m (ApiClient o) endpoint opts cb w
         = (Normal Undefined,
            World (entropy w1) (drawn w1) (log w1 ++ [Dispatch d opts'; Uncaught e])).
Proof.
  intros transport m o endpoint opts cb opts' cb' w w1 d err data
         Hresolve Hrequest Htransport Hok.
  rewrite (verb_method_sends transport m o endpoint opts cb opts' cb' w w1 d
             err None data Hresolve Hrequest Htransport).
  unfold prototype.completion_handler. rewrite Hok.
  exists (Error "TypeError" "Cannot read property 'statusCode' of undefined").
  split; [reflexivity|].
  unfold bind, later, throw, emit, ret; cbn.
  now rewrite <- app_assoc.
Qed.

Lemma verb_method_without_response_on_sample :
  exists e,
    is_TypeError e = true
    /\ prototype.verb_method (fun _ _ => (Null, None, Undefined)) DELETE
         (ApiClient sample_options) (Some "") echo_options (Fun (External 3)) (quiet 0)
       = (Normal Undefined,
          World (entropy (after_nonce (quiet 0))) (drawn (after_nonce (quiet 0)))
            (log (after_nonce (quiet 0))
             ++ [Dispatch (defaults_without_url sample_options (Some "delete") (quiet 0))
                          echo_options;
                 Uncaught e])).
Proof.
  exact (verb_method_without_response_never_calls_back
           (fun _ _ => (Null, None, Undefined)) DELETE sample_options (Some "")
           echo_options (Fun (External 3)) echo_options (Fun (External 3))
           (quiet 0) (after_nonce (quiet 0))
           (defaults_without_url sample_options (Some "delete") (quiet 0))
           Null Undefined eq_refl eq_refl eq_refl eq_refl).
Defined.

(* ================================================================== *)
(** ** What the own properties hide *)

(** X12. Of the methods of the prototype, the own properties of a
    constructed client hide [url] and no other: [request], [get], [post],
    [put] and [delete], read on the client, are the functions of the
    prototype, and the accessors [baseUrl] and [headers] are not own
    properties. *)
Theorem own_properties_hide_only_url :
  forall (o : options) (name : string) (v : value) (w : world),
    lookup name prototype.data = Some v ->
    name <> "url" ->
    prototype.get (ApiClient o) name w = (Normal v, w)
    /\ lookup "baseUrl" (ApiClient o) = None
    /\ lookup "headers" (ApiClient o) = None.
Proof.
  intros o name v w Hdata Hname.
  split; [|split; reflexivity].
  unfold prototype.data in Hdata. cbn [lookup] in Hdata.
  destruct (String.eqb_spec name "url") as [|_]; [contradiction|].
  repeat match type of Hdata with
         | (if String.eqb name ?k then _ else _) = _ =>
             destruct (String.eqb_spec name k) as [->|_];
             [injection Hdata as <-; reflexivity|]
         end.
  discriminate Hdata.
Qed.

Lemma own_properties_hide_only_url_on_delete :
  prototype.get (ApiClient sample_options) "delete" (quiet 0)
  = (Normal (Fun (FnVerb DELETE)), quiet 0)
  /\ lookup "baseUrl" (ApiClient sample_options) = None
  /\ lookup "headers" (ApiClient sample_options) = None.
Proof.
  exact (own_properties_hide_only_url sample_options "delete" (Fun (FnVerb DELETE))
           (quiet 0) eq_refl ltac:(discriminate)).
Defined.
